(** * TunableLaser CSC: a shallow embedding of [lsst/ts/laser/csc.py]

    The supervisor ([LaserCSC]), its operational model ([LaserModel]) and
    the boundary they talk to are embedded as state-passing functions.
    Python exceptions do not roll back earlier mutations, so every action
    returns both an outcome and the state reached. *)

From Stdlib Require Import ZArith String List PrimFloat.
From stdpp Require Import base option strings list gmap pretty.

Open Scope string_scope.
Open Scope Z_scope.

(** ** Enumerations *)

(** [class LaserDetailedStateEnum(enum.Enum)], csc.py lines 12-30. *)
Inductive LaserDetailedStateEnum :=
| DISABLEDSTATE
| ENABLEDSTATE
| FAULTSTATE
| OFFLINESTATE
| STANDBYSTATE
| PROPAGATINGSTATE.

Definition LaserDetailedStateEnum_value (e : LaserDetailedStateEnum) : Z :=
  match e with
  | DISABLEDSTATE => 1
  | ENABLEDSTATE => 2
  | FAULTSTATE => 3
  | OFFLINESTATE => 4
  | STANDBYSTATE => 5
  | PROPAGATINGSTATE => 6
  end.

#[global] Instance LaserDetailedStateEnum_eq_dec : EqDecision LaserDetailedStateEnum.
Proof. solve_decision. Defined.

(** Modelled from the spec: [salobj.State] is not under src/; the five
    lifecycle states are the ones the spec's data model lists
    ("one of {Offline, Standby, Disabled, Enabled, Fault}"). *)
Inductive State :=
| OFFLINE
| STANDBY
| DISABLED
| ENABLED
| FAULT.

#[global] Instance State_eq_dec : EqDecision State.
Proof. solve_decision. Defined.

(** ** Python values that the supervisor compares and formats *)

Inductive value :=
| VInt (z : Z)
| VStr (s : string)
| VDetailed (e : LaserDetailedStateEnum)
| VState (s : State).

(** Python [==] on the values above.  A member of a plain [enum.Enum]
    is equal only to itself: it is never equal to an integer or a string,
    and not to a member of another enumeration. *)
Definition py_eq (a b : value) : bool :=
  match a, b with
  | VInt x, VInt y => Z.eqb x y
  | VStr x, VStr y => bool_decide (x = y)
  | VDetailed x, VDetailed y => bool_decide (x = y)
  | VState x, VState y => bool_decide (x = y)
  | _, _ => false
  end.

Definition py_ne (a b : value) : bool := negb (py_eq a b).

(** Python [s[:-n]] on a string.  For [n >= 1]: everything but the last
    [n] characters, the empty string when [s] has no more than [n].  For
    [n = 0] the bound [-0] is [0], and [s[:0]] is the empty string. *)
Definition drop_last (n : nat) (s : string) : string :=
  match n with
  | O => ""
  | S _ => String.substring 0 (String.length s - n) s
  end.

(** ** The device aggregate, [lsst.ts.laser.component.LaserComponent] *)

(** Modelled from the spec: the module attributes of component.py are not
    under src/.  What the modules answer when queried: the two textual
    readings the telemetry loop reads (lines 71-72) and the fault code the
    aggregate derives (spec 3). *)
Record Readings := {
  MaxiOPG_wavelength : string;
  TK6_temperature : string;
  aggregate_fault_code : string
}.

(** Modelled from the spec: the channel of component.py is not under src/
    (the test fixture replaces it through [lc.serial]).  Spec 4.1: an
    abstract "send command string / read response string" channel; here,
    whether a round trip succeeds now and what the modules would reply. *)
Record Serial := {
  link_up : bool;
  replies : Readings
}.

(** The calls csc.py makes on the component and its module drivers
    (lines 212, 213, 238, 247, 256, 265). *)
Inductive ComponentCall :=
| MaxiOPG_set_wavelength (wavelength : float)
| MaxiOPG_set_configuration (mode : string)
| M_CPU800_set_propagate (switch : string)
| M_CPU800_set_energy (mode : string)
| publish_call.

(** Modelled from the spec: component.py is not under src/ (only its test
    is).  Spec 3 and 4.2: the aggregate owns the module drivers, keeps the
    values parsed by the most recent refresh, and derives a [fault_code];
    every call that reaches it is recorded in [calls], in order. *)
Record LaserComponent := {
  port : option string;
  serial : Serial;
  calls : list ComponentCall;
  parsed : Readings
}.

(** ** Exceptions and outcomes *)

Inductive exn :=
| ExpectedError (msg : string)
| AttributeError (cls attr : string)
| ValueError (text : string)
| HardwareCommandError (call : ComponentCall).

Inductive outcome (A : Type) :=
| Returned (a : A)
| Raised (e : exn).
Arguments Returned {A} a.
Arguments Raised {A} e.

(** An action on a state [S]: the outcome and the state it leaves. *)
Definition act (S A : Type) : Type := S -> outcome A * S.

Definition ret {S A} (a : A) : act S A := fun s => (Returned a, s).
Definition raise {S A} (e : exn) : act S A := fun s => (Raised e, s).
Definition bind {S A B} (c : act S A) (k : A -> act S B) : act S B :=
  fun s =>
    match c s with
    | (Returned a, s') => k a s'
    | (Raised e, s') => (Raised e, s')
    end.
Definition get {S} : act S S := fun s => (Returned s, s).
Definition modify {S} (f : S -> S) : act S unit := fun s => (Returned tt, f s).

Notation "x <- c ;; k" := (bind c (fun x => k))
  (at level 100, c at next level, right associativity).
Notation "c ;; k" := (bind c (fun _ => k))
  (at level 100, right associativity).

(** ** Operations of the device aggregate *)

Module LaserComponent_ops.

Definition record_call (call : ComponentCall) (self : LaserComponent) : LaserComponent :=
  {| port := port self; serial := serial self;
     calls := calls self ++ [call]; parsed := parsed self |}.

(** Modelled from the spec: the driver methods of component.py are not
    under src/.  Spec 4.2: a composite operation "forwards to the ...
    driver; fails with HardwareCommandError if the underlying send fails;
    no retry (single attempt)". *)
Definition driver_command (call : ComponentCall) : act LaserComponent unit :=
  fun self =>
    let self := record_call call self in
    if link_up (serial self)
    then (Returned tt, self)
    else (Raised (HardwareCommandError call), self).

(** Modelled from the spec: [LaserComponent._publish] is not under src/.
    Spec 3 and 4.2: [refresh()] re-queries the drivers and recomputes
    [fault_code]; it "must fully complete or leave prior values
    unchanged", and it reports a failure in its result, not by raising. *)
Definition _publish : act LaserComponent unit :=
  fun self =>
    let self := record_call publish_call self in
    if link_up (serial self)
    then (Returned tt,
          {| port := port self; serial := serial self;
             calls := calls self; parsed := replies (serial self) |})
    else (Returned tt, self).

End LaserComponent_ops.

(** ** What lies outside the repository *)

(** The message types of [SALPY_TunableLaser], two Python builtins and the
    serial device found at a port are not part of the repository: the
    embedding takes them as given. *)
Record Externals := {
  (** [detailedState] of a fresh [evt_detailedState.DataType()]: an
      integer field of the generated message type. *)
  detailedState_default : Z;
  (** [wavelength] of a fresh [tel_wavelength.DataType()]. *)
  wavelength_default : float;
  (** [temperature] of a fresh [tel_temperature.DataType()]. *)
  temperature_default : float;
  (** How an f-string renders a value. *)
  py_format : value -> string;
  (** The builtin [float] on a string; [None] is its [ValueError]. *)
  py_float : string -> option float;
  (** The serial device behind a port. *)
  serial_at : option string -> Serial;
  (** The attribute values of a component that has not refreshed yet. *)
  unread : Readings
}.

(** ** The operational model, [class LaserModel] *)

(** What an attribute of the model can hold. *)
Inductive attr :=
| AComponent (c : LaserComponent)
| AMethod (name : string)
| AValue (v : value).

(** [a == v] for an attribute read off the model.  The component and the
    bound methods define no [__eq__]: they compare by identity, and are
    never identical to a literal. *)
Definition attr_eq (a : attr) (v : value) : bool :=
  match a with
  | AValue x => py_eq x v
  | AComponent _ | AMethod _ => false
  end.

(** A [LaserModel] object is its instance dictionary. *)
Abbreviation LaserModel := (gmap string attr).

Module LaserModel_ops.

(** Names bound in the body of [class LaserModel], lines 216-265. *)
Definition class_namespace : list string :=
  ["__init__"; "change_wavelength"; "run"; "stop"; "publish"].

(** Attribute lookup on a [LaserModel] instance: the instance dictionary,
    then the class; the class defines no [__getattr__], so any other name
    is an [AttributeError]. *)
Definition getattr (name : string) : act LaserModel attr :=
  fun self =>
    match self !! name with
    | Some a => (Returned a, self)
    | None =>
        if bool_decide (name ∈ class_namespace)
        then (Returned (AMethod name), self)
        else (Raised (AttributeError "LaserModel" name), self)
    end.

(** [self._laser.<call>]: run an action of the component held in
    [_laser]; the component is mutated in place. *)
Definition with_laser {A} (c : act LaserComponent A) : act LaserModel A :=
  fun self =>
    match getattr "_laser" self with
    | (Returned (AComponent laser), _) =>
        let '(r, laser') := c laser in
        (r, <["_laser" := AComponent laser']> self)
    | (Returned _, _) => (Raised (AttributeError "_laser" "module"), self)
    | (Raised e, _) => (Raised e, self)
    end.

(** [__init__], lines 224-225: the only assignment to an attribute of
    [self] in the class. *)
Definition init (X : Externals) (port : option string) : LaserModel :=
  {[ "_laser" := AComponent {| port := port; serial := serial_at X port;
                               calls := []; parsed := unread X |} ]}.

(** Lines 227-238. *)
Definition change_wavelength (wavelength : float) : act LaserModel unit :=
  with_laser (LaserComponent_ops.driver_command (MaxiOPG_set_wavelength wavelength)).

(** Lines 240-247. *)
Definition run : act LaserModel unit :=
  with_laser (LaserComponent_ops.driver_command (M_CPU800_set_propagate "ON")).

(** Lines 249-256. *)
Definition stop : act LaserModel unit :=
  with_laser (LaserComponent_ops.driver_command (M_CPU800_set_propagate "OFF")).

(** Lines 258-265. *)
Definition publish : act LaserModel unit :=
  with_laser LaserComponent_ops._publish.

End LaserModel_ops.

(** ** The supervisor, [class LaserCSC(salobj.BaseCsc)] *)

(** What the supervisor puts on its own topics. *)
Inductive Sample :=
| evt_detailedState (detailedState : value)
| tel_wavelength (wavelength : float)
| tel_temperature (temperature : float).

(** The attributes [__init__] (lines 51-58) gives the supervisor, and
    [published]: the samples put on its topics so far, oldest first. *)
Record LaserCSC := {
  summary_state : State;
  model : LaserModel;
  frequency : Z;
  wavelength_topic : float;
  temperature_topic : float;
  published : list Sample
}.

(** The coroutine started by [asyncio.ensure_future(self.telemetry())]:
    suspended in its loop, or finished by the exception it raised. *)
Inductive Task :=
| Scheduled
| Crashed (e : exn).

(** The commands the gateway forwards (one [do_<name>] each). *)
Inductive Command :=
| changeWavelength (wavelength : float)
| startPropagateLaser
| stopPropagateLaser
| abort
| clearFaultState
| setValue
| enterControl.

Definition Command_name (c : Command) : string :=
  match c with
  | changeWavelength _ => "changeWavelength"
  | startPropagateLaser => "startPropagateLaser"
  | stopPropagateLaser => "stopPropagateLaser"
  | abort => "abort"
  | clearFaultState => "clearFaultState"
  | setValue => "setValue"
  | enterControl => "enterControl"
  end.

Module LaserCSC_ops.

Definition with_summary_state (s : State) (self : LaserCSC) : LaserCSC :=
  {| summary_state := s; model := model self; frequency := frequency self;
     wavelength_topic := wavelength_topic self;
     temperature_topic := temperature_topic self;
     published := published self |}.

Definition with_model (m : LaserModel) (self : LaserCSC) : LaserCSC :=
  {| summary_state := summary_state self; model := m;
     frequency := frequency self;
     wavelength_topic := wavelength_topic self;
     temperature_topic := temperature_topic self;
     published := published self |}.

Definition with_wavelength_topic (w : float) (self : LaserCSC) : LaserCSC :=
  {| summary_state := summary_state self; model := model self;
     frequency := frequency self;
     wavelength_topic := w;
     temperature_topic := temperature_topic self;
     published := published self |}.

Definition with_temperature_topic (t : float) (self : LaserCSC) : LaserCSC :=
  {| summary_state := summary_state self; model := model self;
     frequency := frequency self;
     wavelength_topic := wavelength_topic self;
     temperature_topic := t;
     published := published self |}.

(** [topic.put(data)]: one more sample on the bus. *)
Definition put (sample : Sample) : act LaserCSC unit :=
  modify (fun self =>
    {| summary_state := summary_state self; model := model self;
       frequency := frequency self;
       wavelength_topic := wavelength_topic self;
       temperature_topic := temperature_topic self;
       published := published self ++ [sample] |}).

(** [self.model.<method>(...)]. *)
Definition on_model {A} (c : act LaserModel A) : act LaserCSC A :=
  fun self => let '(r, m) := c (model self) in (r, with_model m self).

Section WithExternals.

Variable X : Externals.

(** Modelled from the spec: [salobj.BaseCsc.assert_enabled] is not under
    src/.  Spec 4.4: a command whose precondition fails is "rejected with
    an explicit 'not allowed in current state' error identifying the
    command name and the current state".  The text has the shape of the
    sibling [assert_propagating], line 90. *)
Definition assert_enabled (action : string) : act LaserCSC unit :=
  self <- get ;;
  if py_ne (VState (summary_state self)) (VState ENABLED)
  then raise (ExpectedError
                (action ++ " not allowed in state "
                        ++ py_format X (VState (summary_state self))))
  else ret tt.

(** Modelled from the spec: [salobj.BaseCsc.fault] is not under src/.
    Spec 4.4: "force Lifecycle = Fault".  The base class belongs to the
    middleware: it has no access to [LaserDetailedStateEnum] and puts
    nothing on this supervisor's [evt_detailedState]. *)
Definition fault : act LaserCSC unit :=
  modify (with_summary_state FAULT).

(** A fresh [self.evt_detailedState.DataType()]. *)
Record detailedState_DataType := { detailedState_field : value }.

Definition evt_detailedState_DataType : detailedState_DataType :=
  {| detailedState_field := VInt (detailedState_default X) |}.

(** The [detailed_state] property, lines 190-193. *)
Definition detailed_state (self : LaserCSC) : value :=
  let detailed_state_topic := evt_detailedState_DataType in
  detailedState_field detailed_state_topic.

(** The [detailed_state] setter, lines 195-199. *)
Definition set_detailed_state (new_sub_state : value) : act LaserCSC unit :=
  let detailed_state_topic := evt_detailedState_DataType in
  let detailed_state_topic := {| detailedState_field := new_sub_state |} in
  put (evt_detailedState (detailedState_field detailed_state_topic)).

(** Lines 77-90. *)
Definition assert_propagating (action : string) : act LaserCSC unit :=
  self <- get ;;
  if py_ne (detailed_state self) (VDetailed PROPAGATINGSTATE)
  then raise (ExpectedError
                (action ++ " not allowed in state "
                        ++ py_format X (detailed_state self)))
  else ret tt.

(** Lines 92-104. *)
Definition do_changeWavelength (wavelength : float) : act LaserCSC unit :=
  assert_enabled "changeWavelength" ;;
  on_model (LaserModel_ops.change_wavelength wavelength).

(** Lines 106-119. *)
Definition do_startPropagateLaser : act LaserCSC unit :=
  assert_enabled "startPropagateLaser" ;;
  on_model LaserModel_ops.run ;;
  set_detailed_state (VDetailed PROPAGATINGSTATE).

(** Lines 121-135. *)
Definition do_stopPropagateLaser : act LaserCSC unit :=
  assert_enabled "stopPropagateLaser" ;;
  assert_propagating "stopPropagateLaser" ;;
  on_model LaserModel_ops.stop ;;
  set_detailed_state (VDetailed ENABLEDSTATE).

(** Lines 137-148. *)
Definition do_abort : act LaserCSC unit := ret tt.

(** Lines 150-161. *)
Definition do_clearFaultState : act LaserCSC unit :=
  on_model LaserModel_ops.stop.

(** Lines 164-175. *)
Definition do_setValue : act LaserCSC unit := ret tt.

(** Lines 177-188. *)
Definition do_enterControl : act LaserCSC unit := ret tt.

(** Lines 201-213. *)
Definition begin_enable : act LaserCSC unit :=
  on_model (LaserModel_ops.with_laser
              (LaserComponent_ops.driver_command (MaxiOPG_set_configuration "No SCU"))) ;;
  on_model (LaserModel_ops.with_laser
              (LaserComponent_ops.driver_command (M_CPU800_set_energy "MAX"))).

(** The gateway: command [c] runs [do_c]. *)
Definition do_ (c : Command) : act LaserCSC unit :=
  match c with
  | changeWavelength wavelength => do_changeWavelength wavelength
  | startPropagateLaser => do_startPropagateLaser
  | stopPropagateLaser => do_stopPropagateLaser
  | abort => do_abort
  | clearFaultState => do_clearFaultState
  | setValue => do_setValue
  | enterControl => do_enterControl
  end.

(** [self.model._laser.<module>.<attribute>]. *)
Definition laser_attribute (field : Readings -> string) : act LaserCSC string :=
  on_model (LaserModel_ops.with_laser
              (fun laser => (Returned (field (parsed laser)), laser))).

(** The builtin [float] applied to a string. *)
Definition float_of (text : string) : act LaserCSC float :=
  match py_float X text with
  | Some f => ret f
  | None => raise (ValueError text)
  end.

(** One pass through the body of [while True], lines 68-74, up to the
    [await asyncio.sleep(self.frequency)] that suspends the coroutine. *)
Definition telemetry_iteration : act LaserCSC unit :=
  on_model LaserModel_ops.publish ;;
  fault_code <- on_model (LaserModel_ops.getattr "fault_code") ;;
  (if attr_eq fault_code (VStr "0002H") then fault else ret tt) ;;
  wavelength <- laser_attribute MaxiOPG_wavelength ;;
  wavelength <- float_of (drop_last 2 wavelength) ;;
  modify (with_wavelength_topic wavelength) ;;
  temperature <- laser_attribute TK6_temperature ;;
  temperature <- float_of (drop_last 1 temperature) ;;
  modify (with_temperature_topic temperature) ;;
  self <- get ;;
  put (tel_wavelength (wavelength_topic self)) ;;
  self <- get ;;
  put (tel_temperature (temperature_topic self)).

(** [__init__], lines 51-58; the coroutine is scheduled, not yet run. *)
Definition init (address : option string) (frequency : Z)
    (initial_state : State) : LaserCSC * Task :=
  ({| summary_state := initial_state;
      model := LaserModel_ops.init X address;
      frequency := frequency;
      wavelength_topic := wavelength_default X;
      temperature_topic := temperature_default X;
      published := [] |},
   Scheduled).

(** The coroutine [telemetry], lines 60-75, resumed once by the event
    loop: it runs one iteration and suspends again at the [await]; an
    exception ends the coroutine, and a finished coroutine never runs
    again. *)
Definition telemetry (sys : LaserCSC * Task) : LaserCSC * Task :=
  match snd sys with
  | Scheduled =>
      match telemetry_iteration (fst sys) with
      | (Returned _, self) => (self, Scheduled)
      | (Raised e, self) => (self, Crashed e)
      end
  | Crashed e => sys
  end.

End WithExternals.

End LaserCSC_ops.

(** ** The supervisor in its event loop *)

Module Controller.

Import LaserCSC_ops.

(** What can happen next in the single-threaded event loop. *)
Inductive Event :=
| Resume                      (** the telemetry coroutine is resumed *)
| Invoke (c : Command)        (** the gateway delivers a command *)
| Lifecycle (s : State)       (** a standard state transition of the middleware *)
| Enable_hook                 (** the middleware calls [begin_enable] *)
| Hardware (line : Serial).   (** the hardware, or the link to it, changes *)

(** The hardware changes under the component. *)
Definition plug (line : Serial) : act LaserCSC unit :=
  on_model (LaserModel_ops.with_laser
              (fun laser =>
                 (Returned tt,
                  {| port := port laser; serial := line;
                     calls := calls laser; parsed := parsed laser |}))).

Definition step (X : Externals) (ev : Event) (sys : LaserCSC * Task) : LaserCSC * Task :=
  match ev with
  | Resume => telemetry X sys
  | Invoke c => (snd (do_ X c (fst sys)), snd sys)
  | Lifecycle s => (with_summary_state s (fst sys), snd sys)
  | Enable_hook => (snd (begin_enable (fst sys)), snd sys)
  | Hardware line => (snd (plug line (fst sys)), snd sys)
  end.

Definition run (X : Externals) (evs : list Event) (sys : LaserCSC * Task) : LaserCSC * Task :=
  fold_left (fun sys ev => step X ev sys) evs sys.

(** The states a supervisor can be in: constructed, then any events. *)
Definition reachable (X : Externals) (sys : LaserCSC * Task) : Prop :=
  exists address frequency initial_state evs,
    sys = run X evs (init X address frequency initial_state).

End Controller.

(** ** Observations *)

(** The component held by the supervisor's model. *)
Definition laser_of (self : LaserCSC) : option LaserComponent :=
  match model self !! "_laser" with
  | Some (AComponent laser) => Some laser
  | _ => None
  end.

(** Every call that has reached the device aggregate, oldest first. *)
Definition hardware_calls (self : LaserCSC) : list ComponentCall :=
  match laser_of self with
  | Some laser => calls laser
  | None => []
  end.

(** The commands whose handler opens with [self.assert_enabled(...)]. *)
Definition asserts_enabled (c : Command) : bool :=
  match c with
  | changeWavelength _ | startPropagateLaser | stopPropagateLaser => true
  | abort | clearFaultState | setValue | enterControl => false
  end.

(** The value a handler assigns to [self.detailed_state] as its last
    statement, if it assigns one. *)
Definition assigns (c : Command) : option value :=
  match c with
  | startPropagateLaser => Some (VDetailed PROPAGATINGSTATE)
  | stopPropagateLaser => Some (VDetailed ENABLEDSTATE)
  | _ => None
  end.

(** The instance dictionary holds [_laser] and nothing else. *)
Definition only_laser (m : LaserModel) : Prop :=
  exists laser, m = {[ "_laser" := AComponent laser ]}.

(** An action of the supervisor that keeps the model's dictionary so. *)
Definition keeps {A} (c : act LaserCSC A) : Prop :=
  forall self, only_laser (model self) -> only_laser (model (snd (c self))).

(** The one call a handler makes on the model, if it makes one
    (lines 104, 118, 134, 161). *)
Definition delegates (c : Command) : option ComponentCall :=
  match c with
  | changeWavelength wavelength => Some (MaxiOPG_set_wavelength wavelength)
  | startPropagateLaser => Some (M_CPU800_set_propagate "ON")
  | stopPropagateLaser => Some (M_CPU800_set_propagate "OFF")
  | clearFaultState => Some (M_CPU800_set_propagate "OFF")
  | abort | setValue | enterControl => None
  end.

Definition is_publish_call (call : ComponentCall) : bool :=
  match call with
  | publish_call => true
  | _ => false
  end.

(** How many refreshes the hardware has seen. *)
Definition refreshes (self : LaserCSC) : nat :=
  length (filter (fun call => is_publish_call call = true) (hardware_calls self)).

Definition is_Resume (ev : Controller.Event) : bool :=
  match ev with
  | Controller.Resume => true
  | _ => false
  end.

(** Whether the telemetry coroutine has been resumed during [evs]. *)
Definition resumed (evs : list Controller.Event) : bool := existsb is_Resume evs.

(** The lifecycle state the middleware's transitions in [evs] lead to,
    starting from [s]. *)
Definition lifecycle_after (s : State) (evs : list Controller.Event) : State :=
  fold_left (fun s ev =>
               match ev with
               | Controller.Lifecycle s' => s'
               | _ => s
               end) evs s.

(** A supervisor on the bench: every external fixed. *)
Module Bench.

Definition render (v : value) : string :=
  match v with
  | VInt z => pretty z
  | VStr s => s
  | VDetailed DISABLEDSTATE => "LaserDetailedStateEnum.DISABLEDSTATE"
  | VDetailed ENABLEDSTATE => "LaserDetailedStateEnum.ENABLEDSTATE"
  | VDetailed FAULTSTATE => "LaserDetailedStateEnum.FAULTSTATE"
  | VDetailed OFFLINESTATE => "LaserDetailedStateEnum.OFFLINESTATE"
  | VDetailed STANDBYSTATE => "LaserDetailedStateEnum.STANDBYSTATE"
  | VDetailed PROPAGATINGSTATE => "LaserDetailedStateEnum.PROPAGATINGSTATE"
  | VState OFFLINE => "State.OFFLINE"
  | VState STANDBY => "State.STANDBY"
  | VState DISABLED => "State.DISABLED"
  | VState ENABLED => "State.ENABLED"
  | VState FAULT => "State.FAULT"
  end.

(** The hardware answers with the critical fault code. *)
Definition faulted : Readings :=
  {| MaxiOPG_wavelength := "1064.0nm";
     TK6_temperature := "25.0C";
     aggregate_fault_code := "0002H" |}.

Definition externals : Externals :=
  {| detailedState_default := 0;
     wavelength_default := 0%float;
     temperature_default := 0%float;
     py_format := render;
     py_float := fun text =>
       if bool_decide (text = "1064.0") then Some 1064.0%float
       else if bool_decide (text = "25.0") then Some 25.0%float
       else None;
     serial_at := fun _ => {| link_up := true; replies := faulted |};
     unread := {| MaxiOPG_wavelength := "";
                  TK6_temperature := "";
                  aggregate_fault_code := "" |} |}.

(** A freshly constructed supervisor in lifecycle state [s]. *)
Definition csc (s : State) : LaserCSC :=
  fst (LaserCSC_ops.init externals (Some "/dev/ttyUSB0") 1 s).

(** The component its model holds. *)
Definition laser : LaserComponent :=
  {| port := Some "/dev/ttyUSB0";
     serial := {| link_up := true; replies := faulted |};
     calls := [];
     parsed := unread externals |}.

(** The same supervisor after the link to the hardware went down. *)
Definition unplugged (s : State) : LaserCSC :=
  snd (Controller.plug {| link_up := false; replies := faulted |} (csc s)).

Definition laser_unplugged : LaserComponent :=
  {| port := Some "/dev/ttyUSB0";
     serial := {| link_up := false; replies := faulted |};
     calls := [];
     parsed := unread externals |}.






(** A short life: enabled by the middleware, set up, propagating, then
    the hardware reports the critical code and the timer fires. *)
Definition history : list Controller.Event :=
  [Controller.Lifecycle DISABLED;
   Controller.Enable_hook;
   Controller.Lifecycle ENABLED;
   Controller.Invoke startPropagateLaser;
   Controller.Hardware {| link_up := true; replies := faulted |};
   Controller.Resume].

End Bench.

(** * Properties *)

Import LaserCSC_ops.

Ltac run_act := unfold bind, ret, raise, get, modify, put in *; simpl in *.

Create HintDb keeps.

(** ** How the actions compose *)

Section Actions.

Context (X : Externals).

Lemma with_laser_present {A} (c : act LaserComponent A) (m : LaserModel) laser :
  m !! "_laser" = Some (AComponent laser) ->
  LaserModel_ops.with_laser c m
  = (fst (c laser), <["_laser" := AComponent (snd (c laser))]> m).
Proof.
  intros Hl. unfold LaserModel_ops.with_laser, LaserModel_ops.getattr.
  rewrite Hl. destruct (c laser); reflexivity.
Qed.

Lemma on_model_frame {A} (c : act LaserModel A) self :
  let r := on_model c self in
  summary_state (snd r) = summary_state self
  /\ published (snd r) = published self
  /\ frequency (snd r) = frequency self
  /\ wavelength_topic (snd r) = wavelength_topic self
  /\ temperature_topic (snd r) = temperature_topic self.
Proof. unfold on_model. destruct (c (model self)); simpl; auto. Qed.

Lemma assert_enabled_passes action self :
  summary_state self = ENABLED ->
  assert_enabled X action self = (Returned tt, self).
Proof. intros He. unfold assert_enabled. run_act. rewrite He. reflexivity. Qed.

Lemma assert_enabled_rejects action self :
  summary_state self <> ENABLED ->
  assert_enabled X action self
  = (Raised (ExpectedError
               (action ++ " not allowed in state "
                       ++ py_format X (VState (summary_state self)))),
     self).
Proof.
  intros Hne. unfold assert_enabled, py_ne. run_act.
  rewrite bool_decide_eq_false_2 by exact Hne. reflexivity.
Qed.

Lemma assert_enabled_cases action self :
  assert_enabled X action self = (Returned tt, self)
  \/ exists e, assert_enabled X action self = (Raised e, self).
Proof.
  destruct (decide (summary_state self = ENABLED)) as [He | Hne].
  - left. by apply assert_enabled_passes.
  - right. eexists. by apply assert_enabled_rejects.
Qed.

Lemma assert_propagating_rejects action self :
  assert_propagating X action self
  = (Raised (ExpectedError
               (action ++ " not allowed in state "
                       ++ py_format X (VInt (detailedState_default X)))),
     self).
Proof. reflexivity. Qed.

Lemma on_model_driver_command call self laser :
  laser_of self = Some laser ->
  on_model (LaserModel_ops.with_laser (LaserComponent_ops.driver_command call)) self
  = (if link_up (serial laser) then Returned tt
     else Raised (HardwareCommandError call),
     with_model
       (<["_laser" := AComponent (LaserComponent_ops.record_call call laser)]>
          (model self))
       self).
Proof.
  unfold laser_of. intros Hl.
  destruct (model self !! "_laser") as [[c | |] |] eqn:Hm; try discriminate.
  injection Hl as ->.
  unfold on_model. rewrite (with_laser_present _ _ _ Hm).
  unfold LaserComponent_ops.driver_command. simpl.
  destruct (link_up (serial laser)); reflexivity.
Qed.

Lemma hardware_calls_with_model laser (m : LaserModel) self :
  hardware_calls (with_model (<["_laser" := AComponent laser]> m) self)
  = calls laser.
Proof.
  unfold hardware_calls, laser_of. simpl.
  by rewrite lookup_insert_eq.
Qed.

End Actions.

(** ** Commands that are accepted *)

(** C4: startPropagateLaser issued while the lifecycle state is Enabled
    (the hardware link working).  The handler completes, sends exactly one
    propagation-ON command to the power-stage driver and publishes one
    detailedState event carrying PROPAGATINGSTATE; nothing else changes.
    The supervisor itself does not come to hold the sub-state: its
    [detailed_state] still reads the default of a fresh topic, which is
    not PROPAGATINGSTATE, and the stopPropagateLaser that follows is
    rejected for that state. *)
Theorem startPropagateLaser_enabled X self laser :
  summary_state self = ENABLED ->
  laser_of self = Some laser ->
  link_up (serial laser) = true ->
  do_startPropagateLaser X self
  = (Returned tt,
     {| summary_state := ENABLED;
        model := <["_laser" := AComponent
                     (LaserComponent_ops.record_call
                        (M_CPU800_set_propagate "ON") laser)]> (model self);
        frequency := frequency self;
        wavelength_topic := wavelength_topic self;
        temperature_topic := temperature_topic self;
        published := (published self
                       ++ [evt_detailedState (VDetailed PROPAGATINGSTATE)])%list |})
  /\ hardware_calls (snd (do_startPropagateLaser X self))
     = (hardware_calls self ++ [M_CPU800_set_propagate "ON"])%list
  /\ detailed_state X (snd (do_startPropagateLaser X self))
     = VInt (detailedState_default X)
  /\ detailed_state X (snd (do_startPropagateLaser X self))
     <> VDetailed PROPAGATINGSTATE
  /\ do_stopPropagateLaser X (snd (do_startPropagateLaser X self))
     = (Raised (ExpectedError
                  ("stopPropagateLaser not allowed in state "
                     ++ py_format X (VInt (detailedState_default X)))),
        snd (do_startPropagateLaser X self)).
Proof.
  intros He Hl Hup.
  assert (Hrun : do_startPropagateLaser X self
                 = (Returned tt,
                    snd (put (evt_detailedState (VDetailed PROPAGATINGSTATE))
                           (with_model
                              (<["_laser" := AComponent
                                   (LaserComponent_ops.record_call
                                      (M_CPU800_set_propagate "ON") laser)]>
                                 (model self))
                              self)))).
  { unfold do_startPropagateLaser, LaserModel_ops.run, set_detailed_state.
    unfold bind at 1. rewrite (assert_enabled_passes X _ _ He).
    unfold bind at 1. rewrite (on_model_driver_command _ _ _ Hl), Hup.
    reflexivity. }
  rewrite Hrun. split; [| split; [| split; [| split]]].
  - run_act. by rewrite He.
  - unfold hardware_calls at 2. rewrite Hl.
    unfold hardware_calls, laser_of. simpl. by rewrite lookup_insert_eq.
  - reflexivity.
  - discriminate.
  - unfold do_stopPropagateLaser. unfold bind at 1.
    rewrite (assert_enabled_passes X) by exact He.
    reflexivity.
Qed.

(** C5: changeWavelength issued while the lifecycle state is Enabled (the
    hardware link working) completes, the oscillator driver receives one
    set-wavelength call carrying the requested value (1064.0 in the
    scenario), and no detailed-state event is published: the sub-state is
    left as it was. *)
Theorem changeWavelength_enabled X wavelength self laser :
  summary_state self = ENABLED ->
  laser_of self = Some laser ->
  link_up (serial laser) = true ->
  do_changeWavelength X wavelength self
  = (Returned tt,
     with_model
       (<["_laser" := AComponent
            (LaserComponent_ops.record_call
               (MaxiOPG_set_wavelength wavelength) laser)]> (model self))
       self)
  /\ hardware_calls (snd (do_changeWavelength X wavelength self))
     = (hardware_calls self ++ [MaxiOPG_set_wavelength wavelength])%list
  /\ published (snd (do_changeWavelength X wavelength self)) = published self
  /\ summary_state (snd (do_changeWavelength X wavelength self)) = ENABLED.
Proof.
  intros He Hl Hup.
  assert (Hrun : do_changeWavelength X wavelength self
                 = (Returned tt,
                    with_model
                      (<["_laser" := AComponent
                           (LaserComponent_ops.record_call
                              (MaxiOPG_set_wavelength wavelength) laser)]>
                         (model self))
                      self)).
  { unfold do_changeWavelength, LaserModel_ops.change_wavelength.
    unfold bind. rewrite (assert_enabled_passes X _ _ He).
    rewrite (on_model_driver_command _ _ _ Hl), Hup. reflexivity. }
  rewrite Hrun. repeat split; simpl; try done.
  rewrite hardware_calls_with_model. unfold hardware_calls. by rewrite Hl.
Qed.

(** ** Placeholders *)

(** C7: in every state, abort and setValue return and leave the
    supervisor, its model, the hardware behind it and everything it has
    published exactly as they were; delivered through the gateway, they
    leave the telemetry coroutine as it was too. *)
Theorem abort_setValue_noop X self task :
  do_abort self = (Returned tt, self)
  /\ do_setValue self = (Returned tt, self)
  /\ do_ X abort self = (Returned tt, self)
  /\ do_ X setValue self = (Returned tt, self)
  /\ Controller.step X (Controller.Invoke abort) (self, task) = (self, task)
  /\ Controller.step X (Controller.Invoke setValue) (self, task) = (self, task).
Proof. repeat split. Qed.

(** ** The detailed state cannot be read back *)

(** C9: in every state the [detailed_state] property evaluates to the
    [detailedState] field of a fresh event topic, a constant; it does not
    depend on what was assigned through the setter, and the check made by
    [assert_propagating] gives the same outcome before and after
    [do_startPropagateLaser] or [do_stopPropagateLaser]. *)
Theorem detailed_state_is_default X self :
  detailed_state X self = detailedState_field (evt_detailedState_DataType X)
  /\ detailed_state X self = VInt (detailedState_default X)
  /\ (forall v, detailed_state X (snd (set_detailed_state X v self))
                = detailed_state X self)
  /\ detailed_state X (snd (do_startPropagateLaser X self))
     = detailed_state X self
  /\ detailed_state X (snd (do_stopPropagateLaser X self))
     = detailed_state X self
  /\ (forall action,
        fst (assert_propagating X action (snd (do_startPropagateLaser X self)))
        = fst (assert_propagating X action self)
        /\ fst (assert_propagating X action (snd (do_stopPropagateLaser X self)))
           = fst (assert_propagating X action self)).
Proof. repeat split. Qed.

(** ** The model never gains an attribute *)


Lemma keeps_ret {A} (a : A) : keeps (ret a).
Proof. intros self H. exact H. Qed.

Lemma keeps_raise {A} e : keeps (@raise LaserCSC A e).
Proof. intros self H. exact H. Qed.

Lemma keeps_get : keeps get.
Proof. intros self H. exact H. Qed.

Lemma keeps_modify f :
  (forall self, model (f self) = model self) -> keeps (modify f).
Proof. intros Hf self H. unfold modify. simpl. by rewrite Hf. Qed.

Lemma keeps_put sample : keeps (put sample).
Proof. by apply keeps_modify. Qed.

Lemma keeps_bind {A B} (c : act LaserCSC A) (k : A -> act LaserCSC B) :
  keeps c -> (forall a, keeps (k a)) -> keeps (bind c k).
Proof.
  intros Hc Hk self H. unfold bind.
  specialize (Hc self H). destruct (c self) as [[a | e] self']; simpl in *.
  - by apply Hk.
  - exact Hc.
Qed.

Lemma keeps_if {A} (b : bool) (c d : act LaserCSC A) :
  keeps c -> keeps d -> keeps (if b then c else d).
Proof. by destruct b. Qed.

Lemma keeps_with_laser {A} (c : act LaserComponent A) :
  keeps (on_model (LaserModel_ops.with_laser c)).
Proof.
  intros self [laser Hm]. unfold on_model.
  rewrite (with_laser_present c (model self) laser)
    by (rewrite Hm; apply lookup_singleton_eq).
  simpl. rewrite Hm, insert_singleton_eq. by eexists.
Qed.

Lemma keeps_getattr name : keeps (on_model (LaserModel_ops.getattr name)).
Proof.
  intros self H. unfold on_model, LaserModel_ops.getattr.
  destruct (model self !! name); [exact H |].
  by destruct (bool_decide _).
Qed.

#[local] Hint Resolve keeps_ret keeps_raise keeps_get keeps_put keeps_if
  keeps_with_laser keeps_getattr : keeps.
#[local] Hint Extern 2 (keeps (bind _ _)) => apply keeps_bind; [| intros ?] : keeps.
#[local] Hint Extern 2 (keeps (modify _)) => apply keeps_modify; reflexivity : keeps.

Lemma keeps_assert_enabled X action : keeps (assert_enabled X action).
Proof. unfold assert_enabled. auto with keeps. Qed.

Lemma keeps_assert_propagating X action : keeps (assert_propagating X action).
Proof. unfold assert_propagating. auto with keeps. Qed.

#[local] Hint Resolve keeps_assert_enabled keeps_assert_propagating : keeps.

Lemma keeps_do_ X c : keeps (do_ X c).
Proof.
  destruct c; simpl;
    unfold do_changeWavelength, do_startPropagateLaser, do_stopPropagateLaser,
      do_abort, do_clearFaultState, do_setValue, do_enterControl,
      set_detailed_state, LaserModel_ops.change_wavelength,
      LaserModel_ops.run, LaserModel_ops.stop;
    auto 10 with keeps.
Qed.

Lemma keeps_begin_enable : keeps begin_enable.
Proof. unfold begin_enable. auto with keeps. Qed.

Lemma keeps_plug line : keeps (Controller.plug line).
Proof. unfold Controller.plug. auto with keeps. Qed.

Lemma keeps_float_of X text : keeps (float_of X text).
Proof. unfold float_of. destruct (py_float X text); auto with keeps. Qed.

Lemma keeps_telemetry_iteration X : keeps (telemetry_iteration X).
Proof.
  pose proof (keeps_float_of X).
  unfold telemetry_iteration, fault, laser_attribute, LaserModel_ops.publish.
  auto 30 with keeps.
Qed.

Lemma only_laser_step X ev sys :
  only_laser (model (fst sys)) ->
  only_laser (model (fst (Controller.step X ev sys))).
Proof.
  intros H. destruct ev; simpl.
  - unfold telemetry. destruct (snd sys); [| exact H].
    pose proof (keeps_telemetry_iteration X (fst sys) H) as Hk.
    by destruct (telemetry_iteration X (fst sys)) as [[] ?].
  - by apply keeps_do_.
  - exact H.
  - by apply keeps_begin_enable.
  - by apply keeps_plug.
Qed.

Lemma only_laser_reachable X sys :
  Controller.reachable X sys -> only_laser (model (fst sys)).
Proof.
  intros (address & frequency & initial_state & evs & ->).
  unfold Controller.run. rewrite <- fold_left_rev_right.
  induction (rev evs) as [| ev evs' IH]; simpl.
  - by eexists.
  - by apply only_laser_step.
Qed.

Lemma telemetry_iteration_raises X self :
  only_laser (model self) ->
  exists self',
    telemetry_iteration X self
    = (Raised (AttributeError "LaserModel" "fault_code"), self')
    /\ summary_state self' = summary_state self
    /\ published self' = published self
    /\ wavelength_topic self' = wavelength_topic self
    /\ temperature_topic self' = temperature_topic self
    /\ (hardware_calls self' = hardware_calls self ++ [publish_call])%list.
Proof.
  intros [laser Hm].
  assert (Hl : model self !! "_laser" = Some (AComponent laser))
    by (rewrite Hm; apply lookup_singleton_eq).
  eexists. split.
  - unfold telemetry_iteration, LaserModel_ops.publish.
    unfold bind at 1. unfold on_model at 1.
    rewrite (with_laser_present _ _ _ Hl).
    assert (Hr : fst (LaserComponent_ops._publish laser) = Returned tt).
    { unfold LaserComponent_ops._publish. simpl.
      by destruct (link_up (serial laser)). }
    rewrite Hr. unfold bind at 1.
    unfold on_model at 1, LaserModel_ops.getattr. simpl.
    rewrite lookup_insert_ne by done.
    rewrite Hm, lookup_singleton_ne by done.
    reflexivity.
  - simpl. repeat split.
    unfold hardware_calls, laser_of. simpl.
    rewrite lookup_insert_eq, Hl.
    unfold LaserComponent_ops._publish. simpl.
    by destruct (link_up (serial laser)).
Qed.

(** C10: the class body of [LaserModel] binds no [fault_code], its
    constructor assigns [_laser] only, and none of its operations adds an
    attribute; so in every state the supervisor can reach the model has no
    [fault_code], and every pass through the telemetry loop ends at the
    comparison with an [AttributeError], after the refresh and before
    anything is published or the lifecycle state is touched.  A scheduled
    telemetry coroutine is finished by that exception. *)
Theorem telemetry_fault_code_missing X sys :
  Controller.reachable X sys ->
  ("fault_code" ∉ LaserModel_ops.class_namespace)
  /\ (forall port, LaserModel_ops.init X port !! "fault_code" = None)
  /\ model (fst sys) !! "fault_code" = None
  /\ (forall wavelength,
        snd (LaserModel_ops.change_wavelength wavelength (model (fst sys)))
          !! "fault_code" = None
        /\ snd (LaserModel_ops.run (model (fst sys))) !! "fault_code" = None
        /\ snd (LaserModel_ops.stop (model (fst sys))) !! "fault_code" = None
        /\ snd (LaserModel_ops.publish (model (fst sys))) !! "fault_code" = None)
  /\ fst (LaserModel_ops.getattr "fault_code" (model (fst sys)))
     = Raised (AttributeError "LaserModel" "fault_code")
  /\ (exists self',
        telemetry_iteration X (fst sys)
        = (Raised (AttributeError "LaserModel" "fault_code"), self')
        /\ summary_state self' = summary_state (fst sys)
        /\ published self' = published (fst sys))
  /\ (snd sys = Scheduled ->
      snd (telemetry X sys)
      = Crashed (AttributeError "LaserModel" "fault_code")).
Proof.
  intros Hreach. pose proof (only_laser_reachable X sys Hreach) as Honly.
  assert (Hnone : forall m : LaserModel, only_laser m -> m !! "fault_code" = None).
  { intros m [laser ->]. by apply lookup_singleton_ne. }
  assert (Hop : forall (c : act LaserComponent unit),
             snd (LaserModel_ops.with_laser c (model (fst sys)))
               !! "fault_code" = None).
  { intros c.
    pose proof (keeps_with_laser c (fst sys) Honly) as Hk.
    unfold on_model in Hk.
    destruct (LaserModel_ops.with_laser c (model (fst sys))) as [r m'].
    simpl in *. by apply Hnone. }
  split.
  { unfold LaserModel_ops.class_namespace. intros Hin.
    repeat (apply elem_of_cons in Hin as [Hin | Hin]; [discriminate |]).
    by apply elem_of_nil in Hin. }
  split; [intros port; by apply lookup_singleton_ne |].
  split; [by apply Hnone |].
  split; [intros wavelength; repeat split; apply Hop |].
  split.
  { unfold LaserModel_ops.getattr. by rewrite (Hnone _ Honly). }
  destruct (telemetry_iteration_raises X (fst sys) Honly)
    as (self' & Hrun & Hs & Hp & _).
  split; [by exists self' |].
  intros Hsched. unfold telemetry. rewrite Hsched, Hrun. reflexivity.
Qed.

(** C1: a telemetry pass on an Enabled supervisor whose hardware reports
    the critical code "0002H".  The refresh stores the code in the
    component, but the comparison reads [fault_code] off the model, which
    has none: the pass raises, the lifecycle state stays Enabled and the
    coroutine is finished. *)
Theorem telemetry_critical_code_not_acted_on :
  let sys := Controller.step Bench.externals Controller.Resume
               (Bench.csc ENABLED, Scheduled) in
  (aggregate_fault_code ∘ parsed) <$> laser_of (fst sys) = Some "0002H"
  /\ summary_state (fst sys) = ENABLED
  /\ snd sys = Crashed (AttributeError "LaserModel" "fault_code")
  /\ published (fst sys) = [].
Proof. vm_compute. repeat split. Qed.

(** ** Commands that are rejected *)

Lemma do_stopPropagateLaser_rejects X self :
  do_stopPropagateLaser X self
  = (Raised (ExpectedError
               ("stopPropagateLaser not allowed in state "
                  ++ py_format X (if bool_decide (summary_state self = ENABLED)
                                  then detailed_state X self
                                  else VState (summary_state self)))),
     self).
Proof.
  unfold do_stopPropagateLaser. unfold bind at 1.
  case_bool_decide as He.
  - rewrite (assert_enabled_passes X _ _ He). reflexivity.
  - rewrite (assert_enabled_rejects X _ _ He). reflexivity.
Qed.

(** C3: stopPropagateLaser is rejected in every state, with the
    supervisor and the hardware untouched.  In particular it is rejected
    right after a startPropagateLaser that completed: the check reads the
    default of a fresh topic, never the PROPAGATINGSTATE just assigned, so
    no propagation-OFF command is sent and no ENABLEDSTATE is published. *)
Theorem stopPropagateLaser_never_accepted X self :
  (exists msg,
     do_stopPropagateLaser X self = (Raised (ExpectedError msg), self))
  /\ (let propagating :=
        snd (do_startPropagateLaser Bench.externals (Bench.csc ENABLED)) in
      let r := do_stopPropagateLaser Bench.externals propagating in
      summary_state propagating = ENABLED
      /\ published propagating = [evt_detailedState (VDetailed PROPAGATINGSTATE)]
      /\ fst r = Raised (ExpectedError "stopPropagateLaser not allowed in state 0")
      /\ hardware_calls (snd r) = [M_CPU800_set_propagate "ON"]
      /\ published (snd r) = [evt_detailedState (VDetailed PROPAGATINGSTATE)]).
Proof.
  split.
  - eexists. apply do_stopPropagateLaser_rejects.
  - vm_compute. repeat split.
Qed.

(** C2 (as amended): a command whose handler opens with [assert_enabled]
    (changeWavelength, startPropagateLaser, stopPropagateLaser), invoked
    while the lifecycle state is not Enabled, raises the rejection error
    naming the command and the current lifecycle state, and leaves the
    supervisor, its model and the hardware exactly as they were: the check
    comes before any delegation. *)
Theorem rejected_before_delegation X c self :
  asserts_enabled c = true ->
  summary_state self <> ENABLED ->
  do_ X c self
  = (Raised (ExpectedError
               (Command_name c ++ " not allowed in state "
                  ++ py_format X (VState (summary_state self)))),
     self).
Proof.
  intros Hc Hne. destruct c; try discriminate Hc; simpl;
    unfold do_changeWavelength, do_startPropagateLaser, do_stopPropagateLaser;
    unfold bind at 1; rewrite (assert_enabled_rejects X _ _ Hne);
    reflexivity.
Qed.

(** C2 (as stated) fails: clearFaultState, whose documented precondition
    is Lifecycle = Fault, is accepted in Standby and its propagation-OFF
    command reaches the power-stage driver. *)
Lemma clearFaultState_standby_reaches_hardware :
  let r := do_ Bench.externals clearFaultState (Bench.csc STANDBY) in
  summary_state (Bench.csc STANDBY) = STANDBY
  /\ hardware_calls (Bench.csc STANDBY) = []
  /\ fst r = Returned tt
  /\ hardware_calls (snd r) = [M_CPU800_set_propagate "OFF"].
Proof. vm_compute. repeat split. Qed.

(** ** Clearing a fault *)

(** C6 (as amended): clearFaultState checks no precondition.  In every
    lifecycle state it sends one propagation-OFF command to the
    power-stage driver, completes when the hardware accepts it, and leaves
    the lifecycle state (Fault included) and the published samples as they
    were. *)
Theorem clearFaultState_any_state self laser :
  laser_of self = Some laser ->
  do_clearFaultState self
  = (if link_up (serial laser) then Returned tt
     else Raised (HardwareCommandError (M_CPU800_set_propagate "OFF")),
     with_model
       (<["_laser" := AComponent
            (LaserComponent_ops.record_call
               (M_CPU800_set_propagate "OFF") laser)]> (model self))
       self)
  /\ hardware_calls (snd (do_clearFaultState self))
     = (hardware_calls self ++ [M_CPU800_set_propagate "OFF"])%list
  /\ summary_state (snd (do_clearFaultState self)) = summary_state self
  /\ published (snd (do_clearFaultState self)) = published self.
Proof.
  intros Hl. unfold do_clearFaultState, LaserModel_ops.stop.
  rewrite (on_model_driver_command _ _ _ Hl). simpl.
  repeat split.
  rewrite hardware_calls_with_model. unfold hardware_calls. by rewrite Hl.
Qed.

(** C6 (as stated) fails: issued while the lifecycle state is Enabled,
    clearFaultState is not rejected; it completes and switches
    propagation off. *)
Lemma clearFaultState_accepted_when_enabled :
  let r := do_clearFaultState (Bench.csc ENABLED) in
  summary_state (Bench.csc ENABLED) <> FAULT
  /\ fst r = Returned tt
  /\ hardware_calls (snd r) = [M_CPU800_set_propagate "OFF"]
  /\ summary_state (snd r) = ENABLED.
Proof. vm_compute. repeat split. discriminate. Qed.

(** ** The theorems at work on the bench *)

Lemma startPropagateLaser_enabled_witness :
  summary_state (Bench.csc ENABLED) = ENABLED
  /\ laser_of (Bench.csc ENABLED) = Some Bench.laser
  /\ link_up (serial Bench.laser) = true
  /\ hardware_calls
       (snd (do_startPropagateLaser Bench.externals (Bench.csc ENABLED)))
     = (hardware_calls (Bench.csc ENABLED) ++ [M_CPU800_set_propagate "ON"])%list
  /\ detailed_state Bench.externals
       (snd (do_startPropagateLaser Bench.externals (Bench.csc ENABLED)))
     <> VDetailed PROPAGATINGSTATE.
Proof.
  split; [reflexivity |]. split; [reflexivity |]. split; [reflexivity |].
  pose proof (startPropagateLaser_enabled Bench.externals (Bench.csc ENABLED)
                Bench.laser eq_refl eq_refl eq_refl)
    as (_ & Hcalls & _ & Hread & _).
  split; [exact Hcalls | exact Hread].
Defined.

Lemma changeWavelength_enabled_witness :
  summary_state (Bench.csc ENABLED) = ENABLED
  /\ laser_of (Bench.csc ENABLED) = Some Bench.laser
  /\ link_up (serial Bench.laser) = true
  /\ hardware_calls
       (snd (do_changeWavelength Bench.externals 1064.0%float (Bench.csc ENABLED)))
     = (hardware_calls (Bench.csc ENABLED)
          ++ [MaxiOPG_set_wavelength 1064.0%float])%list
  /\ published
       (snd (do_changeWavelength Bench.externals 1064.0%float (Bench.csc ENABLED)))
     = published (Bench.csc ENABLED)
  /\ summary_state
       (snd (do_changeWavelength Bench.externals 1064.0%float (Bench.csc ENABLED)))
     = ENABLED.
Proof.
  split; [reflexivity |]. split; [reflexivity |]. split; [reflexivity |].
  apply (changeWavelength_enabled Bench.externals 1064.0%float
           (Bench.csc ENABLED) Bench.laser); reflexivity.
Defined.

Lemma telemetry_fault_code_missing_witness :
  let sys := Controller.run Bench.externals Bench.history
               (init Bench.externals (Some "/dev/ttyUSB0") 1 STANDBY) in
  Controller.reachable Bench.externals sys
  /\ fst (LaserModel_ops.getattr "fault_code" (model (fst sys)))
     = Raised (AttributeError "LaserModel" "fault_code").
Proof.
  intros sys.
  assert (Hreach : Controller.reachable Bench.externals sys).
  { exists (Some "/dev/ttyUSB0"), 1, STANDBY, Bench.history. reflexivity. }
  split; [exact Hreach |].
  apply (telemetry_fault_code_missing Bench.externals sys Hreach).
Defined.

Lemma rejected_before_delegation_witness :
  asserts_enabled startPropagateLaser = true
  /\ summary_state (Bench.csc STANDBY) <> ENABLED
  /\ do_ Bench.externals startPropagateLaser (Bench.csc STANDBY)
     = (Raised (ExpectedError
                  (Command_name startPropagateLaser ++ " not allowed in state "
                     ++ py_format Bench.externals
                          (VState (summary_state (Bench.csc STANDBY))))),
        Bench.csc STANDBY).
Proof.
  split; [reflexivity |]. split; [discriminate |].
  apply (rejected_before_delegation Bench.externals startPropagateLaser
           (Bench.csc STANDBY)); [reflexivity | discriminate].
Defined.

Lemma clearFaultState_any_state_witness :
  laser_of (Bench.csc FAULT) = Some Bench.laser
  /\ hardware_calls (snd (do_clearFaultState (Bench.csc FAULT)))
     = (hardware_calls (Bench.csc FAULT) ++ [M_CPU800_set_propagate "OFF"])%list
  /\ summary_state (snd (do_clearFaultState (Bench.csc FAULT)))
     = summary_state (Bench.csc FAULT)
  /\ published (snd (do_clearFaultState (Bench.csc FAULT)))
     = published (Bench.csc FAULT).
Proof.
  split; [reflexivity |].
  apply (clearFaultState_any_state (Bench.csc FAULT) Bench.laser).
  reflexivity.
Defined.

(** * Further properties of the supervisor *)

(** ** One delegated call per command *)

Lemma with_model_same self : with_model (model self) self = self.
Proof. by destruct self. Qed.

Lemma laser_of_with_model laser (m : LaserModel) self :
  laser_of (with_model (<["_laser" := AComponent laser]> m) self) = Some laser.
Proof. unfold laser_of. simpl. by rewrite lookup_insert_eq. Qed.

(** A call on a module driver made through the model: with a component
    in [_laser] the call is made and recorded; without one nothing
    happens to the supervisor. *)
Lemma on_model_driver_cases call self :
  let r := on_model (LaserModel_ops.with_laser
                       (LaserComponent_ops.driver_command call)) self in
  (exists laser,
      laser_of self = Some laser
      /\ r = (if link_up (serial laser) then Returned tt
              else Raised (HardwareCommandError call),
              with_model
                (<["_laser" := AComponent
                     (LaserComponent_ops.record_call call laser)]> (model self))
                self))
  \/ (laser_of self = None /\ exists e, r = (Raised e, self)).
Proof.
  simpl. destruct (laser_of self) as [laser |] eqn:Hl.
  - left. exists laser. split; [done |]. by apply on_model_driver_command.
  - right. split; [done |].
    unfold laser_of in Hl. unfold on_model, LaserModel_ops.with_laser,
      LaserModel_ops.getattr.
    destruct (model self !! "_laser") as [[c | name | v] |]; try discriminate;
      simpl; rewrite with_model_same; by eexists.
Qed.

(** The shape of every command: either the supervisor is left exactly as
    it was, or the handler's one call on the model is made and, when that
    call returns and the handler ends with an assignment to the detailed
    state, the assignment is published. *)
Lemma do_cases X c self :
  (exists o, do_ X c self = (o, self))
  \/ (exists call,
         delegates c = Some call
         /\ c <> stopPropagateLaser
         /\ (asserts_enabled c = true -> summary_state self = ENABLED)
         /\ do_ X c self
            = let r := on_model (LaserModel_ops.with_laser
                                   (LaserComponent_ops.driver_command call)) self in
              match fst r, assigns c with
              | Returned _, Some assigned =>
                  put (evt_detailedState assigned) (snd r)
              | Returned _, None => (Returned tt, snd r)
              | Raised e, _ => (Raised e, snd r)
              end).
Proof.
  destruct c; simpl.
  - destruct (decide (summary_state self = ENABLED)) as [He | Hne].
    + right. eexists. split; [reflexivity |]. split; [done |]. split; [done |].
      unfold do_changeWavelength, LaserModel_ops.change_wavelength, bind.
      rewrite (assert_enabled_passes X _ _ He).
      by destruct (on_model _ self) as [[[] | e] self'].
    + left. eexists. unfold do_changeWavelength, bind.
      by rewrite (assert_enabled_rejects X _ _ Hne).
  - destruct (decide (summary_state self = ENABLED)) as [He | Hne].
    + right. eexists. split; [reflexivity |]. split; [done |]. split; [done |].
      unfold do_startPropagateLaser, LaserModel_ops.run, bind.
      rewrite (assert_enabled_passes X _ _ He).
      by destruct (on_model _ self) as [[[] | e] self'].
    + left. eexists. unfold do_startPropagateLaser, bind.
      by rewrite (assert_enabled_rejects X _ _ Hne).
  - left. eexists. apply do_stopPropagateLaser_rejects.
  - left. by eexists.
  - right. eexists. split; [reflexivity |]. split; [done |]. split; [done |].
    unfold do_clearFaultState, LaserModel_ops.stop.
    by destruct (on_model _ self) as [[[] | e] self'].
  - left. by eexists.
  - left. by eexists.
Qed.

(** X1: whatever the state, a command makes at most one call on the
    hardware, and only the call its handler names; every call received
    earlier is kept, in order. *)
Theorem command_sends_at_most_its_call X c self :
  hardware_calls (snd (do_ X c self)) = hardware_calls self
  \/ exists call,
       delegates c = Some call
       /\ hardware_calls (snd (do_ X c self))
          = (hardware_calls self ++ [call])%list.
Proof.
  destruct (do_cases X c self) as [[o ->] | (call & Hd & _ & _ & ->)];
    [by left |].
  destruct (on_model_driver_cases call self)
    as [(laser & Hl & Hr) | (_ & e & Hr)]; simpl in Hr; rewrite Hr; simpl.
  - right. exists call. split; [done |].
    assert (Hcalls :
      hardware_calls
        (with_model
           (<["_laser" := AComponent
                (LaserComponent_ops.record_call call laser)]> (model self))
           self)
      = (hardware_calls self ++ [call])%list).
    { rewrite hardware_calls_with_model. unfold hardware_calls.
      by rewrite Hl. }
    destruct (link_up (serial laser)); simpl; [| done].
    by destruct (assigns c).
  - by left.
Qed.

(** X2: no command changes the lifecycle state, the polling period or the
    two telemetry topics, whether it is accepted, rejected or fails on the
    hardware. *)
Theorem commands_keep_lifecycle_and_topics X c self :
  summary_state (snd (do_ X c self)) = summary_state self
  /\ frequency (snd (do_ X c self)) = frequency self
  /\ wavelength_topic (snd (do_ X c self)) = wavelength_topic self
  /\ temperature_topic (snd (do_ X c self)) = temperature_topic self.
Proof.
  destruct (do_cases X c self) as [[o ->] | (call & _ & _ & _ & ->)];
    [done |].
  pose proof (on_model_frame
                (LaserModel_ops.with_laser
                   (LaserComponent_ops.driver_command call)) self)
    as (Hs & _ & Hf & Hw & Ht).
  simpl in *.
  destruct (on_model _ self) as [[[] | e] self']; simpl in *; [| done].
  by destruct (assigns c).
Qed.

(** ** Accepted commands, step by step *)

(** A command that passes its guard, on a supervisor whose model holds a
    component: the call is made; if the hardware takes it the handler
    finishes, otherwise the error leaves the handler at once. *)
Lemma do_delegating X c call self laser :
  delegates c = Some call ->
  c <> stopPropagateLaser ->
  (asserts_enabled c = true -> summary_state self = ENABLED) ->
  laser_of self = Some laser ->
  do_ X c self
  = let self' :=
      with_model
        (<["_laser" := AComponent
             (LaserComponent_ops.record_call call laser)]> (model self))
        self in
    if link_up (serial laser)
    then (Returned tt,
          match assigns c with
          | Some assigned => snd (put (evt_detailedState assigned) self')
          | None => self'
          end)
    else (Raised (HardwareCommandError call), self').
Proof.
  intros Hd Hstop He Hl.
  destruct c; try discriminate Hd; try done; simpl in *;
    injection Hd as <-.
  - unfold do_changeWavelength, LaserModel_ops.change_wavelength, bind.
    rewrite (assert_enabled_passes X _ _ (He eq_refl)).
    rewrite (on_model_driver_command _ _ _ Hl).
    by destruct (link_up (serial laser)).
  - unfold do_startPropagateLaser, LaserModel_ops.run, bind.
    rewrite (assert_enabled_passes X _ _ (He eq_refl)).
    rewrite (on_model_driver_command _ _ _ Hl).
    by destruct (link_up (serial laser)).
  - unfold do_clearFaultState, LaserModel_ops.stop.
    rewrite (on_model_driver_command _ _ _ Hl).
    by destruct (link_up (serial laser)).
Qed.

(** X3: on a supervisor whose model holds a component with a working
    link, a command completes exactly when it is not stopPropagateLaser
    and, if its handler opens with [assert_enabled], the lifecycle state
    is Enabled. *)
Theorem command_completes_iff X c self laser :
  laser_of self = Some laser ->
  link_up (serial laser) = true ->
  fst (do_ X c self) = Returned tt
  <-> c <> stopPropagateLaser
      /\ (asserts_enabled c = true -> summary_state self = ENABLED).
Proof.
  intros Hl Hup. split.
  - intros Hret. split.
    + intros ->. simpl in Hret.
      by rewrite do_stopPropagateLaser_rejects in Hret.
    + intros Hc. destruct (decide (summary_state self = ENABLED)) as [| Hne];
        [done |].
      destruct c; try discriminate Hc; simpl in Hret.
      * unfold do_changeWavelength, bind in Hret.
        by rewrite (assert_enabled_rejects X _ _ Hne) in Hret.
      * unfold do_startPropagateLaser, bind in Hret.
        by rewrite (assert_enabled_rejects X _ _ Hne) in Hret.
      * by rewrite do_stopPropagateLaser_rejects in Hret.
  - intros [Hstop He].
    destruct (delegates c) as [call |] eqn:Hd.
    + rewrite (do_delegating X c call self laser Hd Hstop He Hl), Hup.
      reflexivity.
    + by destruct c.
Qed.

(** X4: when the hardware refuses the call, a command that passed its
    guard fails with the hardware's error, after that one call and before
    anything is published: a startPropagateLaser whose propagation-ON
    command fails publishes no PROPAGATINGSTATE. *)
Theorem hardware_failure_leaves_handler X c call self laser :
  delegates c = Some call ->
  c <> stopPropagateLaser ->
  (asserts_enabled c = true -> summary_state self = ENABLED) ->
  laser_of self = Some laser ->
  link_up (serial laser) = false ->
  fst (do_ X c self) = Raised (HardwareCommandError call)
  /\ hardware_calls (snd (do_ X c self)) = (hardware_calls self ++ [call])%list
  /\ published (snd (do_ X c self)) = published self
  /\ summary_state (snd (do_ X c self)) = summary_state self.
Proof.
  intros Hd Hstop He Hl Hdown.
  rewrite (do_delegating X c call self laser Hd Hstop He Hl), Hdown.
  simpl. repeat split.
  rewrite hardware_calls_with_model. unfold hardware_calls. by rewrite Hl.
Qed.

(** X5: startPropagateLaser does not look at the sub-state.  Issued twice
    in a row on an Enabled supervisor, both complete: two propagation-ON
    commands reach the power stage and PROPAGATINGSTATE is published
    twice. *)
Theorem startPropagateLaser_twice X self laser :
  summary_state self = ENABLED ->
  laser_of self = Some laser ->
  link_up (serial laser) = true ->
  let once := snd (do_startPropagateLaser X self) in
  let twice := do_startPropagateLaser X once in
  fst twice = Returned tt
  /\ hardware_calls (snd twice)
     = (hardware_calls self
          ++ [M_CPU800_set_propagate "ON"; M_CPU800_set_propagate "ON"])%list
  /\ published (snd twice)
     = (published self
          ++ [evt_detailedState (VDetailed PROPAGATINGSTATE);
              evt_detailedState (VDetailed PROPAGATINGSTATE)])%list.
Proof.
  intros He Hl Hup. simpl.
  pose proof (do_delegating X startPropagateLaser _ self laser eq_refl
                ltac:(discriminate) (fun _ => He) Hl) as H1.
  simpl in H1. rewrite Hup in H1. rewrite H1. simpl.
  set (laser1 := LaserComponent_ops.record_call (M_CPU800_set_propagate "ON") laser).
  set (once := {| summary_state := summary_state self |}).
  assert (Hl1 : laser_of once = Some laser1)
    by (unfold laser_of; simpl; by rewrite lookup_insert_eq).
  pose proof (do_delegating X startPropagateLaser _ once laser1 eq_refl
                ltac:(discriminate) (fun _ => He) Hl1) as H2.
  simpl in H2. rewrite Hup in H2. rewrite H2. simpl.
  repeat split.
  - assert (Hc : hardware_calls self = calls laser)
      by (unfold hardware_calls; by rewrite Hl).
    rewrite Hc. unfold hardware_calls, laser_of. simpl.
    rewrite lookup_insert_eq. simpl. by rewrite <- app_assoc.
  - by rewrite <- app_assoc.
Qed.

(** X6: clearFaultState switches propagation off without publishing a
    detailed state.  After startPropagateLaser then clearFaultState on an
    Enabled supervisor the hardware has received ON then OFF, while the
    last detailed state published is still PROPAGATINGSTATE. *)
Theorem clearFaultState_after_start X self laser :
  summary_state self = ENABLED ->
  laser_of self = Some laser ->
  link_up (serial laser) = true ->
  let started := snd (do_startPropagateLaser X self) in
  let cleared := do_clearFaultState started in
  fst cleared = Returned tt
  /\ hardware_calls (snd cleared)
     = (hardware_calls self
          ++ [M_CPU800_set_propagate "ON"; M_CPU800_set_propagate "OFF"])%list
  /\ published (snd cleared)
     = (published self ++ [evt_detailedState (VDetailed PROPAGATINGSTATE)])%list
  /\ last (published (snd cleared))
     = Some (evt_detailedState (VDetailed PROPAGATINGSTATE)).
Proof.
  intros He Hl Hup. simpl.
  pose proof (do_delegating X startPropagateLaser _ self laser eq_refl
                ltac:(discriminate) (fun _ => He) Hl) as H1.
  simpl in H1. rewrite Hup in H1. rewrite H1. simpl.
  set (laser1 := LaserComponent_ops.record_call (M_CPU800_set_propagate "ON") laser).
  set (started := {| summary_state := summary_state self |}).
  assert (Hl1 : laser_of started = Some laser1)
    by (unfold laser_of; simpl; by rewrite lookup_insert_eq).
  pose proof (do_delegating X clearFaultState _ started laser1 eq_refl
                ltac:(discriminate) ltac:(discriminate) Hl1) as H2.
  simpl in H2. rewrite Hup in H2. rewrite H2. simpl.
  repeat split.
  - assert (Hc : hardware_calls self = calls laser)
      by (unfold hardware_calls; by rewrite Hl).
    rewrite Hc. unfold hardware_calls, laser_of. simpl.
    rewrite lookup_insert_eq. simpl. by rewrite <- app_assoc.
  - apply last_snoc.
Qed.

(** ** The enable hook *)

(** X7: [begin_enable] pushes the set-up sequence in order, the
    configuration mode "No SCU" to the oscillator and then the energy mode
    "MAX" to the power stage; if the first call fails the second is never
    made.  It publishes nothing and leaves the lifecycle state alone. *)
Theorem begin_enable_sequence self laser :
  laser_of self = Some laser ->
  fst (begin_enable self)
  = (if link_up (serial laser) then Returned tt
     else Raised (HardwareCommandError (MaxiOPG_set_configuration "No SCU")))
  /\ hardware_calls (snd (begin_enable self))
     = (hardware_calls self
          ++ if link_up (serial laser)
             then [MaxiOPG_set_configuration "No SCU"; M_CPU800_set_energy "MAX"]
             else [MaxiOPG_set_configuration "No SCU"])%list
  /\ summary_state (snd (begin_enable self)) = summary_state self
  /\ published (snd (begin_enable self)) = published self.
Proof.
  intros Hl.
  assert (Hc : hardware_calls self = calls laser)
    by (unfold hardware_calls; by rewrite Hl).
  unfold begin_enable, bind.
  rewrite (on_model_driver_command _ _ _ Hl).
  destruct (link_up (serial laser)) eqn:Hup.
  - rewrite (on_model_driver_command _ _ _ (laser_of_with_model _ _ _)).
    simpl. rewrite Hup. simpl. repeat split.
    rewrite insert_insert_eq, hardware_calls_with_model, Hc. simpl.
    by rewrite <- app_assoc.
  - simpl. repeat split.
    by rewrite hardware_calls_with_model, Hc.
Qed.

(** ** The attributes of the model *)

Lemma with_laser_dom {A} (c : act LaserComponent A) (m : LaserModel) :
  dom (snd (LaserModel_ops.with_laser c m)) =@{gset string} dom m.
Proof.
  unfold LaserModel_ops.with_laser, LaserModel_ops.getattr.
  destruct (m !! "_laser") as [[laser | name | v] |] eqn:Hm; simpl; try done.
  destruct (c laser) as [r laser']. simpl.
  apply dom_insert_lookup_L. by rewrite Hm.
Qed.

(** X8: no method of [LaserModel] creates or deletes an attribute of the
    instance: after [change_wavelength], [run], [stop] or [publish] the
    instance has exactly the attribute names it had before. *)
Theorem LaserModel_methods_keep_attributes (m : LaserModel) wavelength :
  dom (snd (LaserModel_ops.change_wavelength wavelength m)) =@{gset string} dom m
  /\ dom (snd (LaserModel_ops.run m)) =@{gset string} dom m
  /\ dom (snd (LaserModel_ops.stop m)) =@{gset string} dom m
  /\ dom (snd (LaserModel_ops.publish m)) =@{gset string} dom m.
Proof. repeat split; apply with_laser_dom. Qed.

(** ** What a supervisor ever publishes, and how often it refreshes *)

Lemma published_do_ X c self :
  published (snd (do_ X c self)) = published self
  \/ published (snd (do_ X c self))
     = (published self ++ [evt_detailedState (VDetailed PROPAGATINGSTATE)])%list.
Proof.
  destruct (do_cases X c self) as [[o ->] | (call & Hd & Hstop & _ & ->)];
    [by left |].
  pose proof (on_model_frame
                (LaserModel_ops.with_laser
                   (LaserComponent_ops.driver_command call)) self)
    as (_ & Hp & _).
  simpl in *.
  destruct (on_model _ self) as [[[] | e] self']; simpl in *; [| by left].
  destruct c; simpl; try done; try (by left).
  right. by rewrite Hp.
Qed.

Lemma published_begin_enable self :
  published (snd (begin_enable self)) = published self.
Proof.
  unfold begin_enable, bind.
  pose proof (on_model_frame
                (LaserModel_ops.with_laser
                   (LaserComponent_ops.driver_command
                      (MaxiOPG_set_configuration "No SCU"))) self)
    as (_ & Hp & _).
  simpl in Hp.
  destruct (on_model _ self) as [[[] | e] self1]; simpl in *; [| done].
  pose proof (on_model_frame
                (LaserModel_ops.with_laser
                   (LaserComponent_ops.driver_command
                      (M_CPU800_set_energy "MAX"))) self1)
    as (_ & Hp1 & _).
  simpl in Hp1. by rewrite Hp1.
Qed.

Lemma published_plug line self :
  published (snd (Controller.plug line self)) = published self.
Proof. unfold Controller.plug. apply on_model_frame. Qed.

Lemma published_step X ev sys :
  only_laser (model (fst sys)) ->
  published (fst (Controller.step X ev sys)) = published (fst sys)
  \/ published (fst (Controller.step X ev sys))
     = (published (fst sys)
          ++ [evt_detailedState (VDetailed PROPAGATINGSTATE)])%list.
Proof.
  intros Honly. destruct ev; simpl.
  - left. unfold telemetry. destruct (snd sys); [| done].
    destruct (telemetry_iteration_raises X (fst sys) Honly)
      as (self' & -> & _ & Hp & _).
    exact Hp.
  - apply published_do_.
  - by left.
  - left. apply published_begin_enable.
  - left. apply published_plug.
Qed.

(** X9: everything a supervisor has published, in any state it can
    reach, is a detailedState event carrying PROPAGATINGSTATE.  It never
    publishes a wavelength or temperature sample, and never publishes
    ENABLEDSTATE or any other detailed state. *)
Theorem only_propagating_is_ever_published X sys :
  Controller.reachable X sys ->
  Forall (fun sample => sample = evt_detailedState (VDetailed PROPAGATINGSTATE))
    (published (fst sys))
  /\ (forall wavelength, tel_wavelength wavelength ∉ published (fst sys))
  /\ (forall temperature, tel_temperature temperature ∉ published (fst sys))
  /\ (evt_detailedState (VDetailed ENABLEDSTATE) ∉ published (fst sys)).
Proof.
  intros Hreach.
  assert (Hall : Forall (fun sample =>
                           sample = evt_detailedState (VDetailed PROPAGATINGSTATE))
                   (published (fst sys))).
  { destruct Hreach as (address & frequency & initial_state & evs & ->).
    assert (Hinv : forall sys0,
               only_laser (model (fst sys0)) ->
               Forall (fun sample =>
                         sample = evt_detailedState (VDetailed PROPAGATINGSTATE))
                 (published (fst sys0)) ->
               Forall (fun sample =>
                         sample = evt_detailedState (VDetailed PROPAGATINGSTATE))
                 (published (fst (Controller.run X evs sys0)))).
    { induction evs as [| ev evs IH]; intros sys0 Honly Hpub; [done |].
      simpl. apply IH.
      - by apply only_laser_step.
      - destruct (published_step X ev sys0 Honly) as [-> | ->]; [done |].
        apply Forall_app. split; [done |]. by constructor. }
    apply Hinv; [by eexists | constructor]. }
  split; [exact Hall |].
  rewrite Forall_forall in Hall.
  repeat split; intros; intros Hin; by apply Hall in Hin.
Qed.



Lemma refreshes_with_model laser (m : LaserModel) self :
  refreshes (with_model (<["_laser" := AComponent laser]> m) self)
  = length (filter (fun call => is_publish_call call = true) (calls laser)).
Proof. unfold refreshes. by rewrite hardware_calls_with_model. Qed.

Lemma refreshes_driver call self :
  is_publish_call call = false ->
  refreshes (snd (on_model (LaserModel_ops.with_laser
                              (LaserComponent_ops.driver_command call)) self))
  = refreshes self.
Proof.
  intros Hcall.
  destruct (on_model_driver_cases call self)
    as [(laser & Hl & Hr) | (_ & e & Hr)]; simpl in Hr; rewrite Hr; simpl;
    [| done].
  rewrite refreshes_with_model. unfold refreshes, hardware_calls.
  rewrite Hl. simpl. rewrite filter_app, length_app.
  rewrite filter_cons_False by (rewrite Hcall; discriminate).
  rewrite filter_nil. simpl. lia.
Qed.

Lemma refreshes_do_ X c self : refreshes (snd (do_ X c self)) = refreshes self.
Proof.
  destruct (do_cases X c self) as [[o ->] | (call & Hd & _ & _ & ->)];
    [done |].
  assert (Hcall : is_publish_call call = false)
    by (destruct c; simpl in Hd; by simplify_eq).
  pose proof (refreshes_driver call self Hcall) as Hr. simpl in *.
  destruct (on_model _ self) as [[[] | e] self']; simpl in *; [| done].
  by destruct (assigns c).
Qed.

Lemma refreshes_begin_enable self :
  refreshes (snd (begin_enable self)) = refreshes self.
Proof.
  unfold begin_enable, bind.
  pose proof (refreshes_driver (MaxiOPG_set_configuration "No SCU") self eq_refl)
    as Hr.
  destruct (on_model _ self) as [[[] | e] self1]; simpl in *; [| done].
  by rewrite (refreshes_driver (M_CPU800_set_energy "MAX") self1 eq_refl).
Qed.

Lemma refreshes_plug line self :
  refreshes (snd (Controller.plug line self)) = refreshes self.
Proof.
  unfold Controller.plug, on_model, LaserModel_ops.with_laser,
    LaserModel_ops.getattr, refreshes, hardware_calls, laser_of.
  destruct (model self !! "_laser") as [[laser | name | v] |] eqn:Hm;
    simpl; rewrite ?Hm; try done.
  by rewrite lookup_insert_eq.
Qed.

(** The telemetry coroutine and the refresh count, event by event. *)
Lemma telemetry_once_step X ev sys (b : bool) :
  only_laser (model (fst sys)) ->
  snd sys = (if b then Crashed (AttributeError "LaserModel" "fault_code")
             else Scheduled) ->
  refreshes (fst sys) = (if b then 1 else 0)%nat ->
  snd (Controller.step X ev sys)
  = (if b || is_Resume ev then Crashed (AttributeError "LaserModel" "fault_code")
     else Scheduled)
  /\ refreshes (fst (Controller.step X ev sys))
     = (if b || is_Resume ev then 1 else 0)%nat.
Proof.
  intros Honly Htask Hcount. destruct ev; simpl;
    rewrite ?orb_false_r, ?orb_true_r.
  - unfold telemetry. rewrite Htask. destruct b; [done |].
    destruct (telemetry_iteration_raises X (fst sys) Honly)
      as (self' & -> & _ & _ & _ & _ & Hcalls).
    split; [done |]. simpl. unfold refreshes in *. rewrite Hcalls.
    rewrite filter_app, length_app, Hcount. reflexivity.
  - by rewrite refreshes_do_.
  - done.
  - by rewrite refreshes_begin_enable.
  - by rewrite refreshes_plug.
Qed.

(** X10: the telemetry loop never gets past its first pass.  Over any
    sequence of events after construction, the coroutine is still
    scheduled if it was never resumed and is finished by the
    [AttributeError] otherwise; the hardware is refreshed once in the
    supervisor's whole life if the coroutine was ever resumed, and never
    otherwise. *)
Theorem telemetry_runs_at_most_once X address frequency initial_state evs :
  let sys := Controller.run X evs (init X address frequency initial_state) in
  snd sys = (if resumed evs
             then Crashed (AttributeError "LaserModel" "fault_code")
             else Scheduled)
  /\ refreshes (fst sys) = (if resumed evs then 1 else 0)%nat.
Proof.
  simpl.
  assert (Hinv : forall sys0 (b : bool),
             only_laser (model (fst sys0)) ->
             snd sys0 = (if b then Crashed (AttributeError "LaserModel" "fault_code")
                         else Scheduled) ->
             refreshes (fst sys0) = (if b then 1 else 0)%nat ->
             snd (Controller.run X evs sys0)
             = (if b || resumed evs
                then Crashed (AttributeError "LaserModel" "fault_code")
                else Scheduled)
             /\ refreshes (fst (Controller.run X evs sys0))
                = (if b || resumed evs then 1 else 0)%nat).
  { induction evs as [| ev evs IH]; intros sys0 b Honly Htask Hcount.
    - simpl. by rewrite orb_false_r.
    - simpl.
      destruct (telemetry_once_step X ev sys0 b Honly Htask Hcount)
        as [Htask' Hcount'].
      rewrite orb_assoc.
      apply IH; [by apply only_laser_step | done | done]. }
  apply (Hinv _ false); [by eexists | done | done].
Qed.

(** ** Who moves the lifecycle state *)

Lemma summary_state_begin_enable self :
  summary_state (snd (begin_enable self)) = summary_state self.
Proof.
  unfold begin_enable, bind.
  pose proof (on_model_frame
                (LaserModel_ops.with_laser
                   (LaserComponent_ops.driver_command
                      (MaxiOPG_set_configuration "No SCU"))) self)
    as (Hs & _).
  simpl in Hs.
  destruct (on_model _ self) as [[[] | e] self1]; simpl in *; [| done].
  pose proof (on_model_frame
                (LaserModel_ops.with_laser
                   (LaserComponent_ops.driver_command
                      (M_CPU800_set_energy "MAX"))) self1)
    as (Hs1 & _).
  simpl in Hs1. by rewrite Hs1.
Qed.

Lemma summary_state_do_ X c self :
  summary_state (snd (do_ X c self)) = summary_state self.
Proof.
  destruct (do_cases X c self) as [[o ->] | (call & _ & _ & _ & ->)];
    [done |].
  pose proof (on_model_frame
                (LaserModel_ops.with_laser
                   (LaserComponent_ops.driver_command call)) self)
    as (Hs & _).
  simpl in *.
  destruct (on_model _ self) as [[[] | e] self']; simpl in *; [| done].
  by destruct (assigns c).
Qed.

Lemma summary_state_step X ev sys :
  only_laser (model (fst sys)) ->
  summary_state (fst (Controller.step X ev sys))
  = match ev with
    | Controller.Lifecycle s => s
    | _ => summary_state (fst sys)
    end.
Proof.
  intros Honly. destruct ev; simpl.
  - unfold telemetry. destruct (snd sys); [| done].
    by destruct (telemetry_iteration_raises X (fst sys) Honly)
      as (self' & -> & Hs & _).
  - apply summary_state_do_.
  - done.
  - apply summary_state_begin_enable.
  - unfold Controller.plug. apply on_model_frame.
Qed.

(** X11: the supervisor never moves its own lifecycle state.  After any
    sequence of events the lifecycle state is the one the middleware's
    last transition set, or the initial state if there was none: no
    command, no enable hook and no telemetry pass changes it, and in
    particular the telemetry loop never puts the supervisor in Fault. *)
Theorem lifecycle_follows_middleware X address frequency initial_state evs :
  summary_state
    (fst (Controller.run X evs (init X address frequency initial_state)))
  = lifecycle_after initial_state evs.
Proof.
  assert (Hinv : forall sys0,
             only_laser (model (fst sys0)) ->
             summary_state (fst (Controller.run X evs sys0))
             = lifecycle_after (summary_state (fst sys0)) evs).
  { induction evs as [| ev evs IH]; intros sys0 Honly; [done |].
    simpl. rewrite (IH _ (only_laser_step X ev sys0 Honly)).
    by rewrite (summary_state_step X ev sys0 Honly). }
  apply (Hinv (init X address frequency initial_state)). by eexists.
Qed.

(** ** The telemetry pass on a model that has a fault code *)

#[local] Arguments drop_last : simpl never.




(** ** The further properties at work on the bench *)

Lemma command_completes_iff_witness :
  laser_of (Bench.csc ENABLED) = Some Bench.laser
  /\ link_up (serial Bench.laser) = true
  /\ fst (do_ Bench.externals (changeWavelength 1064.0%float) (Bench.csc ENABLED))
     = Returned tt.
Proof.
  split; [reflexivity |]. split; [reflexivity |].
  apply (command_completes_iff Bench.externals (changeWavelength 1064.0%float)
           (Bench.csc ENABLED) Bench.laser); [reflexivity | reflexivity |].
  split; [discriminate | reflexivity].
Defined.

Lemma hardware_failure_leaves_handler_witness :
  delegates startPropagateLaser = Some (M_CPU800_set_propagate "ON")
  /\ laser_of (Bench.unplugged ENABLED) = Some Bench.laser_unplugged
  /\ link_up (serial Bench.laser_unplugged) = false
  /\ fst (do_ Bench.externals startPropagateLaser (Bench.unplugged ENABLED))
     = Raised (HardwareCommandError (M_CPU800_set_propagate "ON"))
  /\ hardware_calls
       (snd (do_ Bench.externals startPropagateLaser (Bench.unplugged ENABLED)))
     = (hardware_calls (Bench.unplugged ENABLED)
          ++ [M_CPU800_set_propagate "ON"])%list
  /\ published
       (snd (do_ Bench.externals startPropagateLaser (Bench.unplugged ENABLED)))
     = published (Bench.unplugged ENABLED)
  /\ summary_state
       (snd (do_ Bench.externals startPropagateLaser (Bench.unplugged ENABLED)))
     = summary_state (Bench.unplugged ENABLED).
Proof.
  split; [reflexivity |]. split; [reflexivity |]. split; [reflexivity |].
  apply (hardware_failure_leaves_handler Bench.externals startPropagateLaser
           (M_CPU800_set_propagate "ON") (Bench.unplugged ENABLED)
           Bench.laser_unplugged);
    [reflexivity | discriminate | reflexivity | reflexivity | reflexivity].
Defined.

Lemma startPropagateLaser_twice_witness :
  summary_state (Bench.csc ENABLED) = ENABLED
  /\ laser_of (Bench.csc ENABLED) = Some Bench.laser
  /\ link_up (serial Bench.laser) = true
  /\ fst (do_startPropagateLaser Bench.externals
            (snd (do_startPropagateLaser Bench.externals (Bench.csc ENABLED))))
     = Returned tt.
Proof.
  split; [reflexivity |]. split; [reflexivity |]. split; [reflexivity |].
  apply (startPropagateLaser_twice Bench.externals (Bench.csc ENABLED)
           Bench.laser); reflexivity.
Defined.

Lemma clearFaultState_after_start_witness :
  summary_state (Bench.csc ENABLED) = ENABLED
  /\ laser_of (Bench.csc ENABLED) = Some Bench.laser
  /\ link_up (serial Bench.laser) = true
  /\ fst (do_clearFaultState
            (snd (do_startPropagateLaser Bench.externals (Bench.csc ENABLED))))
     = Returned tt.
Proof.
  split; [reflexivity |]. split; [reflexivity |]. split; [reflexivity |].
  apply (clearFaultState_after_start Bench.externals (Bench.csc ENABLED)
           Bench.laser); reflexivity.
Defined.

Lemma begin_enable_sequence_witness :
  laser_of (Bench.csc DISABLED) = Some Bench.laser
  /\ fst (begin_enable (Bench.csc DISABLED))
     = (if link_up (serial Bench.laser) then Returned tt
        else Raised (HardwareCommandError (MaxiOPG_set_configuration "No SCU"))).
Proof.
  split; [reflexivity |].
  apply (begin_enable_sequence (Bench.csc DISABLED) Bench.laser).
  reflexivity.
Defined.

Lemma only_propagating_is_ever_published_witness :
  let sys := Controller.run Bench.externals Bench.history
               (init Bench.externals (Some "/dev/ttyUSB0") 1 STANDBY) in
  Controller.reachable Bench.externals sys
  /\ Forall (fun sample =>
               sample = evt_detailedState (VDetailed PROPAGATINGSTATE))
       (published (fst sys)).
Proof.
  intros sys.
  assert (Hreach : Controller.reachable Bench.externals sys).
  { exists (Some "/dev/ttyUSB0"), 1, STANDBY, Bench.history. reflexivity. }
  split; [exact Hreach |].
  apply (only_propagating_is_ever_published Bench.externals sys Hreach).
Defined.


